(** * Multi-tenant user service (hybrid_multitenant.py)

    A shallow embedding of [src/main.py]: the tenant registry
    [TENANT_META], the session factory [get_db_session], the schema
    provisioner [ensure_tenant_table], the header dependency
    [get_tenant_request] and the two routes [create_user] and
    [list_users].

    The program is stateful: it creates SQLAlchemy engines and MetaData
    objects, writes a thread-local attribute and talks to one SQLite file
    per tenant.  All of that is threaded explicitly through a [World]
    value by a small state-and-exception monad [M].  Python exceptions
    are the [Raise] outcome. *)

From Stdlib Require Import ZArith String Ascii List Bool Lia.
From stdpp Require Import base option list strings gmap fin_maps.

Open Scope Z_scope.
Open Scope string_scope.
Open Scope list_scope.

(** ** The relational backend

    What SQLAlchemy and SQLite contribute is outside [src/]; the model
    keeps exactly the part the program exercises.  A database file holds
    tables by name; a stored table has a column list and rows; a row
    gives a value to every column of its table. *)

Inductive ColType := Integer | String_.

Record Column := {
  col_name : string;
  col_type : ColType;
  col_primary_key : bool
}.

Inductive Value :=
| VNull
| VInt (z : Z)
| VStr (s : string).

Definition Row := list (string * Value).

Record StoredTable := {
  st_columns : list Column;
  st_rows : list Row
}.

#[global] Instance ColType_eq_dec : EqDecision ColType.
Proof. solve_decision. Defined.
#[global] Instance Column_eq_dec : EqDecision Column.
Proof. solve_decision. Defined.
#[global] Instance Value_eq_dec : EqDecision Value.
Proof. solve_decision. Defined.

(** ** Python-side objects *)

Record TenantMeta := {
  db_url : string;
  table_prefix : string
}.

Record Engine := {
  engine_id : nat;
  engine_url : string
}.

Record Session := { session_bind : Engine }.

(** A [Table] object of SQLAlchemy: a name and the declared columns. *)
Record Table := {
  table_name : string;
  table_columns : list Column
}.

(** A [MetaData] object is the collection of the [Table] objects that
    were declared against it, in declaration order. *)
Definition MetaData := list Table.

Inductive Error :=
| HTTPException (status_code : Z) (detail : string)
| InvalidRequestError (table : string)
| OperationalError (table : string)
| AttributeError (attr : string).

(** Effects that leave the process, in the order they happen. *)
Inductive Event :=
| EvRegistryLookup (tenant_id : string)
| EvCreateEngine (url : string)
| EvHasTable (url name : string)
| EvCreateTable (url name : string)
| EvInsert (url name : string)
| EvSelect (url name : string).

(** ** The world

    - [files]: the SQLite files, by URL; a file that does not exist yet
      has no entry and is created by the first write;
    - [engines]: the URL of every engine [create_engine] has built, oldest
      first; the position of an engine in this list is its identity;
    - [metadatas]: the heap of [MetaData] objects, addressed by position;
    - [tenant_context]: the [prefix] attribute of the [threading.local]
      object as seen by the thread handling the request ([None] while the
      attribute is unset);
    - [log]: the trace of [Event]s. *)

Record World := {
  files : gmap string (gmap string StoredTable);
  engines : list string;
  metadatas : list MetaData;
  tenant_context : option string;
  log : list Event
}.

Definition set_files (f : gmap string (gmap string StoredTable)) (w : World) : World :=
  {| files := f; engines := engines w; metadatas := metadatas w;
     tenant_context := tenant_context w; log := log w |}.

Definition set_engines (e : list string) (w : World) : World :=
  {| files := files w; engines := e; metadatas := metadatas w;
     tenant_context := tenant_context w; log := log w |}.

Definition set_metadatas (m : list MetaData) (w : World) : World :=
  {| files := files w; engines := engines w; metadatas := m;
     tenant_context := tenant_context w; log := log w |}.

Definition set_tenant_context (p : option string) (w : World) : World :=
  {| files := files w; engines := engines w; metadatas := metadatas w;
     tenant_context := p; log := log w |}.

Definition set_log (l : list Event) (w : World) : World :=
  {| files := files w; engines := engines w; metadatas := metadatas w;
     tenant_context := tenant_context w; log := l |}.

(** A process that has just started on a machine without database files. *)
Definition initial_world : World :=
  {| files := ∅; engines := []; metadatas := []; tenant_context := None; log := [] |}.

(** ** State and exceptions *)

Inductive Outcome (A : Type) :=
| Return (a : A)
| Raise (e : Error).
Arguments Return {A} a.
Arguments Raise {A} e.

Definition M (A : Type) : Type := World -> Outcome A * World.

Definition ret {A} (a : A) : M A := fun w => (Return a, w).

Definition raise {A} (e : Error) : M A := fun w => (Raise e, w).

Definition bind {A B} (c : M A) (k : A -> M B) : M B :=
  fun w => match c w with
           | (Return a, w') => k a w'
           | (Raise e, w') => (Raise e, w')
           end.

Notation "'let!' x ':=' c 'in' k" := (bind c (fun x => k))
  (at level 10, x name, c at level 100, k at level 200).
Notation "c '>>' k" := (bind c (fun _ => k))
  (at level 100, k at level 200, right associativity).

Definition emit (e : Event) : M unit :=
  fun w => (Return tt, set_log (log w ++ [e]) w).

(** ** Backend operations

    [database_of url w] is the content of the SQLite file behind [url];
    a missing file reads as an empty database, as SQLite creates the file
    when it is first opened. *)

Definition database_of (url : string) (w : World) : gmap string StoredTable :=
  default ∅ (files w !! url).

Definition write_table (url name : string) (t : StoredTable) (w : World) : World :=
  set_files (<[url := <[name := t]> (database_of url w)]> (files w)) w.

(** [create_engine] builds a new engine on every call; it is lazy and
    does not touch the database. *)
Definition create_engine (url : string) : M Engine :=
  fun w =>
    (Return {| engine_id := length (engines w); engine_url := url |},
     set_log (log w ++ [EvCreateEngine url]) (set_engines (engines w ++ [url]) w)).

(** [sessionmaker(bind=engine, ...)]: a factory of sessions bound to the
    engine; calling it sends nothing to the database. *)
Definition sessionmaker (bind_ : Engine) : unit -> Session :=
  fun _ => {| session_bind := bind_ |}.

(** [MetaData()]: a fresh, empty collection; the result is its address. *)
Definition new_MetaData : M nat :=
  fun w => (Return (length (metadatas w)), set_metadatas (metadatas w ++ [[]]) w).

Definition metadata_tables (metadata : nat) (w : World) : MetaData :=
  default [] (metadatas w !! metadata).

(** [Table(name, metadata, *columns)]: registers the table in the
    MetaData object.  SQLAlchemy raises [InvalidRequestError] when a table
    of that name is already defined for this MetaData instance and
    columns are given without [extend_existing]. *)
Definition new_Table (name : string) (metadata : nat) (columns : list Column) : M Table :=
  fun w =>
    let tables := metadata_tables metadata w in
    if bool_decide (name ∈ table_name <$> tables)
    then (Raise (InvalidRequestError name), w)
    else
      let t := {| table_name := name; table_columns := columns |} in
      (Return t, set_metadatas (<[metadata := tables ++ [t]]> (metadatas w)) w).

(** The existence check of [create_all] (its default [checkfirst=True]):
    by name only. *)
Definition has_table (engine : Engine) (name : string) : M bool :=
  emit (EvHasTable (engine_url engine) name) >>
  fun w => (Return (bool_decide (is_Some (database_of (engine_url engine) w !! name))), w).

(** [CREATE TABLE]: the backend refuses a name that is taken. *)
Definition create_table (engine : Engine) (t : Table) : M unit :=
  emit (EvCreateTable (engine_url engine) (table_name t)) >>
  fun w =>
    match database_of (engine_url engine) w !! table_name t with
    | Some _ => (Raise (OperationalError (table_name t)), w)
    | None =>
        (Return tt,
         write_table (engine_url engine) (table_name t)
           {| st_columns := table_columns t; st_rows := [] |} w)
    end.

Fixpoint missing_tables (engine : Engine) (tables : list Table) : M (list Table) :=
  match tables with
  | [] => ret []
  | t :: rest =>
      let! present := has_table engine (table_name t) in
      let! todo := missing_tables engine rest in
      ret (if present : bool then todo else t :: todo)
  end.

Fixpoint create_tables (engine : Engine) (tables : list Table) : M unit :=
  match tables with
  | [] => ret tt
  | t :: rest => create_table engine t >> create_tables engine rest
  end.

(** [metadata.create_all(engine)]: every table of the MetaData object
    that the database does not have yet is created; the others are left
    as they are. *)
Definition metadata_create_all (metadata : nat) (engine : Engine) : M unit :=
  let! tables := (fun w => (Return (metadata_tables metadata w), w)) in
  let! todo := missing_tables engine tables in
  create_tables engine todo.

(** *** INSERT

    [users_table.insert().values(name=..., email=...)] is sent as
    [INSERT INTO t (name, email) VALUES (?, ?)].  The statement needs the
    table and both columns to exist.  A column that is the table's only
    primary-key column and of integer type receives the next row id
    (one more than the largest in use, 1 in an empty table); every other
    column that the statement does not name receives NULL. *)

Fixpoint row_get (column : string) (r : Row) : Value :=
  match r with
  | [] => VNull
  | (k, v) :: r' => if String.eqb k column then v else row_get column r'
  end.

Definition has_column (column : string) (t : StoredTable) : bool :=
  bool_decide (column ∈ col_name <$> st_columns t).

Definition rowid_alias (t : StoredTable) : option string :=
  match filter (fun c => col_primary_key c = true) (st_columns t) with
  | [c] => match col_type c with Integer => Some (col_name c) | String_ => None end
  | _ => None
  end.

Fixpoint max_rowid (column : string) (rows : list Row) : option Z :=
  match rows with
  | [] => None
  | r :: rows' =>
      match row_get column r, max_rowid column rows' with
      | VInt z, Some m => Some (Z.max z m)
      | VInt z, None => Some z
      | _, m => m
      end
  end.

Definition next_rowid (column : string) (rows : list Row) : Z :=
  match max_rowid column rows with
  | None => 1
  | Some m => m + 1
  end.

Definition new_row (t : StoredTable) (name email : string) : Row :=
  map (fun c =>
         (col_name c,
          if String.eqb (col_name c) "name" then VStr name
          else if String.eqb (col_name c) "email" then VStr email
          else if bool_decide (rowid_alias t = Some (col_name c))
               then VInt (next_rowid (col_name c) (st_rows t))
               else VNull))
      (st_columns t).

(** [with engine.connect() as conn: conn.execute(stmt); conn.commit()]
    for the insert statement. *)
Definition execute_insert (engine : Engine) (t : Table) (name email : string) : M unit :=
  emit (EvInsert (engine_url engine) (table_name t)) >>
  fun w =>
    match database_of (engine_url engine) w !! table_name t with
    | None => (Raise (OperationalError (table_name t)), w)
    | Some st =>
        if has_column "name" st && has_column "email" st
        then (Return tt,
              write_table (engine_url engine) (table_name t)
                {| st_columns := st_columns st;
                   st_rows := st_rows st ++ [new_row st name email] |} w)
        else (Raise (OperationalError (table_name t)), w)
    end.

(** *** SELECT

    [users_table.select()] names the three declared columns; the
    statement fails when the stored table lacks one of them.  Rows come
    back in storage order. *)
Definition execute_select (engine : Engine) (t : Table) : M (list Row) :=
  emit (EvSelect (engine_url engine) (table_name t)) >>
  fun w =>
    match database_of (engine_url engine) w !! table_name t with
    | None => (Raise (OperationalError (table_name t)), w)
    | Some st =>
        if forallb (fun c => has_column (col_name c) st) (table_columns t)
        then (Return (map (fun r => map (fun c => (col_name c, row_get (col_name c) r))
                                        (table_columns t))
                          (st_rows st)), w)
        else (Raise (OperationalError (table_name t)), w)
    end.

(** ** The program *)

(** *** Central metadata *)

Definition TENANT_META : gmap string TenantMeta :=
  {[ "alpha" := {| db_url := "sqlite:///./alpha.db"; table_prefix := "alpha_" |};
     "beta" := {| db_url := "sqlite:///./beta.db"; table_prefix := "beta_" |} ]}.

(** [TENANT_META.get(tenant_id)] followed by [if not meta]: the test
    holds for [None] only, as every entry of the registry is a non-empty
    dictionary. *)
Definition get_tenant_meta (tenant_id : string) : M TenantMeta :=
  emit (EvRegistryLookup tenant_id) >>
  match TENANT_META !! tenant_id with
  | None => raise (HTTPException 404 "Tenant not found")
  | Some meta => ret meta
  end.

(** *** Dynamic DB session factory *)

Definition set_tenant_context_prefix (prefix : string) : M unit :=
  fun w => (Return tt, set_tenant_context (Some prefix) w).

(** Reading [tenant_context.prefix]; an unset attribute of a
    [threading.local] raises [AttributeError]. *)
Definition get_tenant_context_prefix : M string :=
  fun w =>
    match tenant_context w with
    | Some prefix => (Return prefix, w)
    | None => (Raise (AttributeError "prefix"), w)
    end.

Definition get_db_session (tenant_id : string) : M (Session * nat * Engine) :=
  let! meta := get_tenant_meta tenant_id in
  let! engine := create_engine (db_url meta) in
  let Session_ := sessionmaker engine in
  let! metadata := new_MetaData in
  set_tenant_context_prefix (table_prefix meta) >>
  ret (Session_ tt, metadata, engine).

(** *** Table creation function *)

Definition users_columns : list Column :=
  [ {| col_name := "id"; col_type := Integer; col_primary_key := true |};
    {| col_name := "name"; col_type := String_; col_primary_key := false |};
    {| col_name := "email"; col_type := String_; col_primary_key := false |} ].

Definition ensure_tenant_table (engine : Engine) (metadata : nat) (prefix : string) : M Table :=
  let table_name := prefix +:+ "users" in
  let! users := new_Table table_name metadata users_columns in
  metadata_create_all metadata engine >>
  ret users.

(** *** Requests

    The ASGI server hands the header names over in lower case, in the
    order received; [request.headers.get(key)] lower-cases [key] and
    returns the value of the first header of that name. *)

Record Request := { headers : list (string * string) }.

Record UserCreate := {
  name : string;
  email : string
}.

Definition ascii_lower (c : ascii) : ascii :=
  let n := nat_of_ascii c in
  if (Nat.leb 65 n && Nat.leb n 90)%bool then ascii_of_nat (n + 32) else c.

Fixpoint lower (s : string) : string :=
  match s with
  | EmptyString => EmptyString
  | String c s' => String (ascii_lower c) (lower s')
  end.

Fixpoint headers_get (key : string) (hs : list (string * string)) : option string :=
  match hs with
  | [] => None
  | (k, v) :: hs' => if String.eqb k (lower key) then Some v else headers_get key hs'
  end.

(** *** Dependency injection: the tenant of a request

    [if not tenant_id] holds for [None] and for the empty string. *)
Definition get_tenant_request (request : Request) : M string :=
  match headers_get "X-Tenant-ID" (headers request) with
  | None => raise (HTTPException 400 "Missing X-Tenant-ID header")
  | Some "" => raise (HTTPException 400 "Missing X-Tenant-ID header")
  | Some tenant_id => ret tenant_id
  end.

(** *** API routes *)

Record CreateResponse := { message : string }.

Record UserRow := {
  row_id : Value;
  row_name : Value;
  row_email : Value
}.

Definition create_user (user : UserCreate) (tenant_id : string) : M CreateResponse :=
  let! session := get_db_session tenant_id in
  let '(db, metadata, engine) := session in
  let! prefix := get_tenant_context_prefix in
  let! users_table := ensure_tenant_table engine metadata prefix in
  execute_insert engine users_table (name user) (email user) >>
  ret {| message := "User created in tenant '" +:+ tenant_id +:+ "'" |}.

Definition list_users (tenant_id : string) : M (list UserRow) :=
  let! session := get_db_session tenant_id in
  let '(db, metadata, engine) := session in
  let! prefix := get_tenant_context_prefix in
  let! users_table := ensure_tenant_table engine metadata prefix in
  let! result := execute_select engine users_table in
  ret (map (fun row => {| row_id := row_get "id" row;
                          row_name := row_get "name" row;
                          row_email := row_get "email" row |}) result).

(** [Depends(get_tenant_request)] runs before the route body; an
    exception it raises ends the request.  The body of a POST arrives
    here already parsed as a [UserCreate]. *)
Definition POST_users (request : Request) (user : UserCreate) : M CreateResponse :=
  let! tenant_id := get_tenant_request request in
  create_user user tenant_id.

Definition GET_users (request : Request) : M (list UserRow) :=
  let! tenant_id := get_tenant_request request in
  list_users tenant_id.

(** ** Error classes of the HTTP boundary *)

Definition MissingTenantHeader : Error := HTTPException 400 "Missing X-Tenant-ID header".

Definition UnknownTenant : Error := HTTPException 404 "Tenant not found".

Definition is_client_error (e : Error) : Prop :=
  match e with
  | HTTPException status _ => 400 <= status < 500
  | _ => False
  end.

(** ** Vocabulary of the statements

    Closed forms of the worlds and tables the program produces, and the
    notions the theorems below are stated with. *)

(** The world [get_db_session] leaves behind for a registered tenant. *)
Definition session_world (tenant_id : string) (meta : TenantMeta) (w : World) : World :=
  {| files := files w;
     engines := engines w ++ [db_url meta];
     metadatas := metadatas w ++ [[]];
     tenant_context := Some (table_prefix meta);
     log := (log w ++ [EvRegistryLookup tenant_id]) ++ [EvCreateEngine (db_url meta)] |}.

Definition session_engine (meta : TenantMeta) (w : World) : Engine :=
  {| engine_id := length (engines w); engine_url := db_url meta |}.

(** The [Table] object [ensure_tenant_table] declares and returns. *)
Definition users_table_of (prefix : string) : Table :=
  {| table_name := prefix +:+ "users"; table_columns := users_columns |}.

Definition empty_users_table : StoredTable :=
  {| st_columns := users_columns; st_rows := [] |}.

(** The world [ensure_tenant_table] leaves behind when it is given an
    empty MetaData object, as [get_db_session] supplies. *)
Definition provisioned_world (engine : Engine) (metadata : nat) (prefix : string)
    (w : World) : World :=
  let url := engine_url engine in
  let tn := prefix +:+ "users" in
  let w1 := set_metadatas (<[metadata := [users_table_of prefix]]> (metadatas w)) w in
  match database_of url w !! tn with
  | Some _ => set_log (log w ++ [EvHasTable url tn]) w1
  | None =>
      write_table url tn empty_users_table
        (set_log ((log w ++ [EvHasTable url tn]) ++ [EvCreateTable url tn]) w1)
  end.

(** What provisioning does to the database behind the engine. *)
Definition provision (tname : string) (db : gmap string StoredTable) : gmap string StoredTable :=
  match db !! tname with
  | Some _ => db
  | None => <[tname := empty_users_table]> db
  end.

(** The INSERT and the SELECT as functions of the stored table. *)
Definition inserted (st : StoredTable) (name email : string) : StoredTable :=
  {| st_columns := st_columns st; st_rows := st_rows st ++ [new_row st name email] |}.

Definition insertable (st : StoredTable) : bool :=
  has_column "name" st && has_column "email" st.

Definition selectable (t : Table) (st : StoredTable) : bool :=
  forallb (fun c => has_column (col_name c) st) (table_columns t).

Definition selected (t : Table) (st : StoredTable) : list Row :=
  map (fun r => map (fun c => (col_name c, row_get (col_name c) r)) (table_columns t))
      (st_rows st).

Definition users_table_name (meta : TenantMeta) : string := table_prefix meta +:+ "users".

(** The world after the first three lines of either route. *)
Definition ready_world (tenant_id : string) (meta : TenantMeta) (w : World) : World :=
  provisioned_world (session_engine meta w) (length (metadatas w)) (table_prefix meta)
    (session_world tenant_id meta w).

(** The tenant's table as those three lines leave it. *)
Definition ready_table (meta : TenantMeta) (w : World) : StoredTable :=
  default empty_users_table (database_of (db_url meta) w !! users_table_name meta).

Definition as_user_row (row : Row) : UserRow :=
  {| row_id := row_get "id" row; row_name := row_get "name" row; row_email := row_get "email" row |}.

Definition created_message (tenant_id : string) : CreateResponse :=
  {| message := "User created in tenant '" +:+ tenant_id +:+ "'" |}.

(** ** Sequences of operations *)

Inductive Op :=
| OpCreate (tenant_id : string) (user : UserCreate)
| OpList (tenant_id : string).

Definition op_tenant (op : Op) : string :=
  match op with
  | OpCreate tenant_id _ => tenant_id
  | OpList tenant_id => tenant_id
  end.

Definition run_op (w : World) (op : Op) : World :=
  match op with
  | OpCreate tenant_id user => snd (create_user user tenant_id w)
  | OpList tenant_id => snd (list_users tenant_id w)
  end.

Definition run_ops (ops : list Op) (w : World) : World := fold_left run_op ops w.

(** The trace of the first three lines of either route. *)
Definition prelude_events (tenant_id : string) (meta : TenantMeta) (w : World) : list Event :=
  [EvRegistryLookup tenant_id; EvCreateEngine (db_url meta);
   EvHasTable (db_url meta) (users_table_name meta)]
  ++ match database_of (db_url meta) w !! users_table_name meta with
     | Some _ => []
     | None => [EvCreateTable (db_url meta) (users_table_name meta)]
     end.

(** An event that reaches a database does so in the tenant's own file
    and on the tenant's own table. *)
Definition targets (meta : TenantMeta) (ev : Event) : Prop :=
  match ev with
  | EvRegistryLookup _ => True
  | EvCreateEngine url => url = db_url meta
  | EvHasTable url tname | EvCreateTable url tname
  | EvInsert url tname | EvSelect url tname =>
      url = db_url meta /\ tname = table_prefix meta +:+ "users"
  end.

(** The tenant's table is absent or has the declared columns. *)
Definition tenant_table_ok (meta : TenantMeta) (w : World) : Prop :=
  forall st, database_of (db_url meta) w !! users_table_name meta = Some st ->
             st_columns st = users_columns.

(** ** Worlds used as concrete inputs *)

Definition alpha_url : string := "sqlite:///./alpha.db".

(** A table called [alpha_users] that somebody else created, with a
    single text column. *)
Definition legacy_table : StoredTable :=
  {| st_columns := [ {| col_name := "id"; col_type := String_; col_primary_key := false |} ];
     st_rows := [] |}.

(** A process with one engine and two empty MetaData objects, facing a
    database that already holds [legacy_table] under the name the
    program will use. *)
Definition legacy_world : World :=
  {| files := {[ alpha_url := {[ "alpha_users" := legacy_table ]} ]};
     engines := [alpha_url];
     metadatas := [[]; []];
     tenant_context := None;
     log := [] |}.

Definition alpha_engine : Engine := {| engine_id := 0; engine_url := alpha_url |}.

Definition bob : UserCreate := {| name := "bob"; email := "bob@example.org" |}.

(** ** Records as they are stored and as they are listed *)

(** The row the database stores for a user under identifier [i]. *)
Definition user_row (i : Z) (u : UserCreate) : Row :=
  [("id", VInt i); ("name", VStr (name u)); ("email", VStr (email u))].

(** The dictionary [list_users] builds for that row. *)
Definition listed (i : Z) (u : UserCreate) : UserRow :=
  {| row_id := VInt i; row_name := VStr (name u); row_email := VStr (email u) |}.

(** Users numbered consecutively from [i]. *)
Fixpoint stored_from (i : Z) (us : list UserCreate) : list Row :=
  match us with
  | [] => []
  | u :: us' => user_row i u :: stored_from (i + 1) us'
  end.

Fixpoint listed_from (i : Z) (us : list UserCreate) : list UserRow :=
  match us with
  | [] => []
  | u :: us' => listed i u :: listed_from (i + 1) us'
  end.

(** The users a sequence of operations creates for tenant [a], in
    order. *)
Fixpoint created_for (a : string) (ops : list Op) : list UserCreate :=
  match ops with
  | [] => []
  | OpCreate t u :: ops' =>
      if decide (t = a) then u :: created_for a ops' else created_for a ops'
  | OpList _ :: ops' => created_for a ops'
  end.

(** The URL of the engine an operation constructs, if it constructs
    one. *)
Definition engine_of_op (op : Op) : option string :=
  db_url <$> TENANT_META !! op_tenant op.

(** * Properties *)

(** ** Running the monad: one equation per primitive *)

Lemma bind_Return {A B} (c : M A) (k : A -> M B) w a w' :
  c w = (Return a, w') -> bind c k w = k a w'.
Proof. intros E. unfold bind. now rewrite E. Qed.

Lemma bind_Raise {A B} (c : M A) (k : A -> M B) w e w' :
  c w = (Raise e, w') -> bind c k w = (Raise e, w').
Proof. intros E. unfold bind. now rewrite E. Qed.

Lemma headers_get_absent key (hs : list (string * string)) :
  lower key ∉ hs.*1 -> headers_get key hs = None.
Proof.
  induction hs as [|[k v] hs IH]; intros Hnot; [reflexivity|].
  cbn [headers_get]. rewrite fmap_cons in Hnot. cbn [fst] in Hnot.
  apply not_elem_of_cons in Hnot as [Hk Hrest].
  destruct (String.eqb_spec k (lower key)) as [->|_]; [congruence|].
  now apply IH.
Qed.

Lemma get_tenant_request_absent request w :
  headers_get "X-Tenant-ID" (headers request) = None ->
  get_tenant_request request w = (Raise MissingTenantHeader, w).
Proof. intros E. unfold get_tenant_request. now rewrite E. Qed.

Lemma get_tenant_request_empty request w :
  headers_get "X-Tenant-ID" (headers request) = Some "" ->
  get_tenant_request request w = (Raise MissingTenantHeader, w).
Proof. intros E. unfold get_tenant_request. now rewrite E. Qed.

Lemma get_tenant_meta_unknown tenant_id w :
  TENANT_META !! tenant_id = None ->
  get_tenant_meta tenant_id w
  = (Raise UnknownTenant, set_log (log w ++ [EvRegistryLookup tenant_id]) w).
Proof. intros E. unfold get_tenant_meta, bind, emit. now rewrite E. Qed.

Lemma get_tenant_meta_known tenant_id meta w :
  TENANT_META !! tenant_id = Some meta ->
  get_tenant_meta tenant_id w
  = (Return meta, set_log (log w ++ [EvRegistryLookup tenant_id]) w).
Proof. intros E. unfold get_tenant_meta, bind, emit. now rewrite E. Qed.

Lemma get_db_session_known tenant_id meta w :
  TENANT_META !! tenant_id = Some meta ->
  get_db_session tenant_id w
  = (Return (sessionmaker (session_engine meta w) tt, length (metadatas w),
             session_engine meta w),
     session_world tenant_id meta w).
Proof.
  intros E. unfold get_db_session.
  rewrite (bind_Return _ _ _ _ _ (get_tenant_meta_known _ _ w E)).
  reflexivity.
Qed.

Lemma get_db_session_unknown tenant_id w :
  TENANT_META !! tenant_id = None ->
  get_db_session tenant_id w
  = (Raise UnknownTenant, set_log (log w ++ [EvRegistryLookup tenant_id]) w).
Proof.
  intros E. unfold get_db_session.
  now rewrite (bind_Raise _ _ _ _ _ (get_tenant_meta_unknown _ w E)).
Qed.

(** Backend primitives, one step each. *)

Lemma has_table_run engine tname w :
  has_table engine tname w
  = (Return (bool_decide (is_Some (database_of (engine_url engine) w !! tname))),
     set_log (log w ++ [EvHasTable (engine_url engine) tname]) w).
Proof. reflexivity. Qed.

Lemma create_table_absent engine t w :
  database_of (engine_url engine) w !! table_name t = None ->
  create_table engine t w
  = (Return tt,
     write_table (engine_url engine) (table_name t)
       {| st_columns := table_columns t; st_rows := [] |}
       (set_log (log w ++ [EvCreateTable (engine_url engine) (table_name t)]) w)).
Proof.
  intros E. unfold create_table, bind, emit.
  change (database_of (engine_url engine) (set_log _ w)) with (database_of (engine_url engine) w).
  now rewrite E.
Qed.

Lemma new_Table_fresh tname metadata columns w :
  metadatas w !! metadata = Some [] ->
  new_Table tname metadata columns w
  = (Return {| table_name := tname; table_columns := columns |},
     set_metadatas
       (<[metadata := [{| table_name := tname; table_columns := columns |}]]> (metadatas w)) w).
Proof.
  intros E. unfold new_Table, metadata_tables. rewrite E. cbn [default id fmap list_fmap].
  rewrite bool_decide_eq_false_2 by (apply not_elem_of_nil). reflexivity.
Qed.

Lemma new_Table_defined tname metadata columns w :
  tname ∈ table_name <$> metadata_tables metadata w ->
  new_Table tname metadata columns w = (Raise (InvalidRequestError tname), w).
Proof. intros E. unfold new_Table. now rewrite bool_decide_eq_true_2. Qed.

Lemma metadata_create_all_single engine metadata t w :
  metadatas w !! metadata = Some [t] ->
  metadata_create_all metadata engine w
  = match database_of (engine_url engine) w !! table_name t with
    | Some _ =>
        (Return tt, set_log (log w ++ [EvHasTable (engine_url engine) (table_name t)]) w)
    | None =>
        (Return tt,
         write_table (engine_url engine) (table_name t)
           {| st_columns := table_columns t; st_rows := [] |}
           (set_log ((log w ++ [EvHasTable (engine_url engine) (table_name t)])
                       ++ [EvCreateTable (engine_url engine) (table_name t)]) w))
    end.
Proof.
  intros E. unfold metadata_create_all, metadata_tables.
  unfold bind at 1. rewrite E. cbn [default id missing_tables].
  unfold bind at 1. unfold bind at 1. rewrite has_table_run.
  unfold bind at 1. unfold ret at 1 2.
  destruct (database_of (engine_url engine) w !! table_name t) as [st|] eqn:Hst.
  - rewrite bool_decide_eq_true_2 by eauto. reflexivity.
  - rewrite bool_decide_eq_false_2 by (intros [? ?]; congruence).
    cbn [create_tables]. unfold bind at 1.
    rewrite create_table_absent by exact Hst. reflexivity.
Qed.

Lemma ensure_tenant_table_fresh engine metadata prefix w :
  metadatas w !! metadata = Some [] ->
  ensure_tenant_table engine metadata prefix w
  = (Return (users_table_of prefix), provisioned_world engine metadata prefix w).
Proof.
  intros Hm.
  assert (Hlt : (metadata < length (metadatas w))%nat) by (eapply lookup_lt_Some; eauto).
  unfold ensure_tenant_table, provisioned_world.
  rewrite (bind_Return _ _ _ _ _ (new_Table_fresh _ _ _ _ Hm)).
  unfold bind at 1.
  rewrite (metadata_create_all_single engine metadata (users_table_of prefix))
    by (cbn [metadatas set_metadatas]; now rewrite list_lookup_insert_eq).
  change (database_of (engine_url engine) (set_metadatas _ w))
    with (database_of (engine_url engine) w).
  cbn [table_name users_table_of].
  destruct (database_of (engine_url engine) w !! (prefix +:+ "users")); reflexivity.
Qed.

(** ** Reading the database back after a write *)

Lemma database_of_write_table url tname t w :
  database_of url (write_table url tname t w) = <[tname := t]> (database_of url w).
Proof. unfold database_of, write_table. cbn [files set_files]. now rewrite lookup_insert_eq. Qed.

Lemma database_of_write_table_ne url url' tname t w :
  url <> url' ->
  database_of url' (write_table url tname t w) = database_of url' w.
Proof.
  intros Hne. unfold database_of, write_table. cbn [files set_files].
  now rewrite lookup_insert_ne.
Qed.

Lemma provision_lookup tname db :
  provision tname db !! tname = Some (default empty_users_table (db !! tname)).
Proof.
  unfold provision. destruct (db !! tname) as [st|] eqn:E; cbn [default id].
  - exact E.
  - apply lookup_insert_eq.
Qed.

Lemma provision_lookup_ne tname tname' db :
  tname <> tname' -> provision tname db !! tname' = db !! tname'.
Proof.
  intros Hne. unfold provision. destruct (db !! tname); [reflexivity|].
  now rewrite lookup_insert_ne.
Qed.


Lemma database_of_provisioned engine metadata prefix w :
  database_of (engine_url engine) (provisioned_world engine metadata prefix w)
  = provision (prefix +:+ "users") (database_of (engine_url engine) w).
Proof.
  unfold provisioned_world, provision.
  destruct (database_of (engine_url engine) w !! (prefix +:+ "users")) as [st|] eqn:E.
  - reflexivity.
  - now rewrite database_of_write_table.
Qed.

Lemma database_of_provisioned_ne engine metadata prefix w url :
  engine_url engine <> url ->
  database_of url (provisioned_world engine metadata prefix w) = database_of url w.
Proof.
  intros Hne. unfold provisioned_world.
  destruct (database_of (engine_url engine) w !! (prefix +:+ "users")) as [st|] eqn:E.
  - reflexivity.
  - now rewrite database_of_write_table_ne.
Qed.

Lemma execute_insert_run engine t name email w st :
  database_of (engine_url engine) w !! table_name t = Some st ->
  execute_insert engine t name email w
  = let w' := set_log (log w ++ [EvInsert (engine_url engine) (table_name t)]) w in
    if insertable st
    then (Return tt, write_table (engine_url engine) (table_name t) (inserted st name email) w')
    else (Raise (OperationalError (table_name t)), w').
Proof.
  intros E. unfold execute_insert, bind, emit.
  change (database_of (engine_url engine) (set_log _ w)) with (database_of (engine_url engine) w).
  now rewrite E.
Qed.

Lemma execute_select_run engine t w st :
  database_of (engine_url engine) w !! table_name t = Some st ->
  execute_select engine t w
  = let w' := set_log (log w ++ [EvSelect (engine_url engine) (table_name t)]) w in
    if selectable t st
    then (Return (selected t st), w')
    else (Raise (OperationalError (table_name t)), w').
Proof.
  intros E. unfold execute_select, bind, emit.
  change (database_of (engine_url engine) (set_log _ w)) with (database_of (engine_url engine) w).
  now rewrite E.
Qed.

(** ** The two routes for a registered tenant *)

Lemma ready_world_table tenant_id meta w :
  database_of (db_url meta) (ready_world tenant_id meta w) !! users_table_name meta
  = Some (ready_table meta w).
Proof.
  unfold ready_world.
  change (db_url meta) with (engine_url (session_engine meta w)) at 1.
  rewrite database_of_provisioned. apply provision_lookup.
Qed.

Lemma route_prelude {A} tenant_id meta w (k : Table -> Engine -> M A) :
  TENANT_META !! tenant_id = Some meta ->
  (let! session := get_db_session tenant_id in
   let '(db, metadata, engine) := session in
   let! prefix := get_tenant_context_prefix in
   let! users_table := ensure_tenant_table engine metadata prefix in
   k users_table engine) w
  = k (users_table_of (table_prefix meta)) (session_engine meta w) (ready_world tenant_id meta w).
Proof.
  intros E.
  rewrite (bind_Return _ _ _ _ _ (get_db_session_known _ _ w E)).
  unfold bind at 1. unfold get_tenant_context_prefix at 1. cbn [tenant_context session_world].
  assert (Hfresh : metadatas (session_world tenant_id meta w) !! length (metadatas w) = Some []).
  { cbn [metadatas session_world]. apply list_lookup_middle. reflexivity. }
  rewrite (bind_Return _ _ _ _ _
             (ensure_tenant_table_fresh (session_engine meta w) (length (metadatas w))
                (table_prefix meta) (session_world tenant_id meta w) Hfresh)).
  reflexivity.
Qed.

Lemma create_user_known user tenant_id meta w :
  TENANT_META !! tenant_id = Some meta ->
  create_user user tenant_id w
  = let w1 := ready_world tenant_id meta w in
    let w2 := set_log (log w1 ++ [EvInsert (db_url meta) (users_table_name meta)]) w1 in
    if insertable (ready_table meta w)
    then (Return (created_message tenant_id),
          write_table (db_url meta) (users_table_name meta)
            (inserted (ready_table meta w) (name user) (email user)) w2)
    else (Raise (OperationalError (users_table_name meta)), w2).
Proof.
  intros E.
  etransitivity;
    [exact (route_prelude tenant_id meta w
              (fun users_table engine =>
                 execute_insert engine users_table (name user) (email user) >>
                 ret (created_message tenant_id)) E)|].
  unfold bind.
  rewrite (execute_insert_run (session_engine meta w) (users_table_of (table_prefix meta))
             _ _ _ _ (ready_world_table tenant_id meta w)).
  cbn zeta. destruct (insertable (ready_table meta w)); reflexivity.
Qed.

Lemma list_users_known tenant_id meta w :
  TENANT_META !! tenant_id = Some meta ->
  list_users tenant_id w
  = let w1 := ready_world tenant_id meta w in
    let w2 := set_log (log w1 ++ [EvSelect (db_url meta) (users_table_name meta)]) w1 in
    if selectable (users_table_of (table_prefix meta)) (ready_table meta w)
    then (Return (map as_user_row
                    (selected (users_table_of (table_prefix meta)) (ready_table meta w))), w2)
    else (Raise (OperationalError (users_table_name meta)), w2).
Proof.
  intros E.
  etransitivity;
    [exact (route_prelude tenant_id meta w
              (fun users_table engine =>
                 let! result := execute_select engine users_table in
                 ret (map as_user_row result)) E)|].
  unfold bind.
  rewrite (execute_select_run (session_engine meta w) (users_table_of (table_prefix meta))
             _ _ (ready_world_table tenant_id meta w)).
  cbn zeta.
  destruct (selectable (users_table_of (table_prefix meta)) (ready_table meta w)); reflexivity.
Qed.

(** ** The registry, case by case *)

Lemma TENANT_META_cases tenant_id meta :
  TENANT_META !! tenant_id = Some meta ->
  (tenant_id = "alpha" /\
   meta = {| db_url := "sqlite:///./alpha.db"; table_prefix := "alpha_" |}) \/
  (tenant_id = "beta" /\
   meta = {| db_url := "sqlite:///./beta.db"; table_prefix := "beta_" |}).
Proof.
  unfold TENANT_META. rewrite lookup_insert_Some, lookup_singleton_Some.
  intros [[<- <-]|[_ [<- <-]]]; auto.
Qed.

Lemma TENANT_META_db_url_inj a b ma mb :
  TENANT_META !! a = Some ma -> TENANT_META !! b = Some mb ->
  a <> b -> db_url ma <> db_url mb.
Proof.
  intros Ha Hb Hne.
  destruct (TENANT_META_cases _ _ Ha) as [[-> ->]|[-> ->]],
           (TENANT_META_cases _ _ Hb) as [[-> ->]|[-> ->]];
    cbn [db_url]; congruence.
Qed.

Lemma ready_table_congruence meta w1 w2 :
  database_of (db_url meta) w1 = database_of (db_url meta) w2 ->
  ready_table meta w1 = ready_table meta w2.
Proof. intros H. unfold ready_table. now rewrite H. Qed.

Lemma database_of_ready_world tenant_id meta w :
  database_of (db_url meta) (ready_world tenant_id meta w)
  = provision (users_table_name meta) (database_of (db_url meta) w).
Proof.
  unfold ready_world.
  change (db_url meta) with (engine_url (session_engine meta w)) at 1.
  now rewrite database_of_provisioned.
Qed.

Lemma database_of_ready_world_ne tenant_id meta w url :
  db_url meta <> url ->
  database_of url (ready_world tenant_id meta w) = database_of url w.
Proof.
  intros Hne. unfold ready_world.
  now rewrite database_of_provisioned_ne by exact Hne.
Qed.

(** An operation of a tenant reads and writes that tenant's file only:
    what it leaves there is a function of what it found there. *)
Lemma run_op_own_file op meta w1 w2 :
  TENANT_META !! op_tenant op = Some meta ->
  database_of (db_url meta) w1 = database_of (db_url meta) w2 ->
  database_of (db_url meta) (run_op w1 op) = database_of (db_url meta) (run_op w2 op).
Proof.
  intros E H. destruct op as [t u|t]; cbn [op_tenant] in E; cbn [run_op].
  - rewrite !(create_user_known u t meta) by exact E. cbn zeta.
    rewrite (ready_table_congruence meta w1 w2 H).
    destruct (insertable (ready_table meta w2)); cbn [snd].
    + rewrite !database_of_write_table.
      change (database_of (db_url meta) (set_log ?l ?w)) with (database_of (db_url meta) w).
      now rewrite !database_of_ready_world, H.
    + change (database_of (db_url meta) (set_log ?l ?w)) with (database_of (db_url meta) w).
      now rewrite !database_of_ready_world, H.
  - rewrite !(list_users_known t meta) by exact E. cbn zeta.
    rewrite (ready_table_congruence meta w1 w2 H).
    destruct (selectable _ _); cbn [snd];
      change (database_of (db_url meta) (set_log ?l ?w)) with (database_of (db_url meta) w);
      now rewrite !database_of_ready_world, H.
Qed.

(** An operation of any other tenant, registered or not, leaves the
    file alone. *)
Lemma run_op_foreign_file op a ma w :
  TENANT_META !! a = Some ma ->
  op_tenant op <> a ->
  database_of (db_url ma) (run_op w op) = database_of (db_url ma) w.
Proof.
  intros Ea Hne.
  destruct (TENANT_META !! op_tenant op) as [meta|] eqn:E.
  - pose proof (TENANT_META_db_url_inj _ _ _ _ E Ea Hne) as Hurl.
    destruct op as [t u|t]; cbn [op_tenant] in E; cbn [run_op].
    + rewrite (create_user_known u t meta) by exact E. cbn zeta.
      destruct (insertable (ready_table meta w)); cbn [snd].
      * rewrite database_of_write_table_ne by exact Hurl.
        change (database_of (db_url ma) (set_log ?l ?w)) with (database_of (db_url ma) w).
        now apply database_of_ready_world_ne.
      * change (database_of (db_url ma) (set_log ?l ?w)) with (database_of (db_url ma) w).
        now apply database_of_ready_world_ne.
    + rewrite (list_users_known t meta) by exact E. cbn zeta.
      destruct (selectable _ _); cbn [snd];
        change (database_of (db_url ma) (set_log ?l ?w)) with (database_of (db_url ma) w);
        now apply database_of_ready_world_ne.
  - destruct op as [t u|t]; cbn [op_tenant] in E; cbn [run_op].
    + unfold create_user.
      rewrite (bind_Raise _ _ _ _ _ (get_db_session_unknown t w E)). reflexivity.
    + unfold list_users.
      rewrite (bind_Raise _ _ _ _ _ (get_db_session_unknown t w E)). reflexivity.
Qed.

Lemma list_users_own_file a ma w1 w2 :
  TENANT_META !! a = Some ma ->
  database_of (db_url ma) w1 = database_of (db_url ma) w2 ->
  fst (list_users a w1) = fst (list_users a w2).
Proof.
  intros E H. rewrite !(list_users_known a ma) by exact E. cbn zeta.
  rewrite (ready_table_congruence ma w1 w2 H).
  now destruct (selectable _ _).
Qed.

(** Only a tenant's own operations decide what is in its file. *)
Lemma run_ops_own_file a ma ops : forall w1 w2,
  TENANT_META !! a = Some ma ->
  database_of (db_url ma) w1 = database_of (db_url ma) w2 ->
  database_of (db_url ma) (run_ops ops w1)
  = database_of (db_url ma)
      (run_ops (filter (fun op => op_tenant op = a) ops) w2).
Proof.
  induction ops as [|op ops IH]; intros w1 w2 E H; [exact H|].
  rewrite filter_cons. cbn [run_ops fold_left]. fold (run_ops ops (run_op w1 op)).
  destruct (decide (op_tenant op = a)) as [Heq|Hne].
  - cbn [run_ops fold_left].
    fold (run_ops (filter (fun op => op_tenant op = a) ops) (run_op w2 op)).
    apply IH; [exact E|]. apply run_op_own_file; [now rewrite Heq|exact H].
  - apply IH; [exact E|]. now rewrite (run_op_foreign_file op a ma w1 E Hne).
Qed.

Lemma get_tenant_request_present request tenant_id w :
  headers_get "X-Tenant-ID" (headers request) = Some tenant_id ->
  tenant_id <> "" ->
  get_tenant_request request w = (Return tenant_id, w).
Proof.
  intros E Hne. unfold get_tenant_request. rewrite E.
  destruct tenant_id; [congruence|reflexivity].
Qed.

Lemma registered_not_empty tenant_id meta :
  TENANT_META !! tenant_id = Some meta -> tenant_id <> "".
Proof. intros E. destruct (TENANT_META_cases _ _ E) as [[-> _]|[-> _]]; discriminate. Qed.

Lemma log_ready_world tenant_id meta w :
  log (ready_world tenant_id meta w) = log w ++ prelude_events tenant_id meta w.
Proof.
  unfold ready_world, provisioned_world, prelude_events.
  change (database_of (engine_url (session_engine meta w)) (session_world tenant_id meta w))
    with (database_of (db_url meta) w).
  change (table_prefix meta +:+ "users") with (users_table_name meta).
  destruct (database_of (db_url meta) w !! users_table_name meta);
    cbn [log set_log set_metadatas write_table set_files session_world engine_url session_engine];
    now rewrite <- !app_assoc.
Qed.

Lemma prelude_events_targets tenant_id meta w :
  Forall (targets meta) (prelude_events tenant_id meta w).
Proof.
  unfold prelude_events.
  destruct (database_of (db_url meta) w !! users_table_name meta);
    repeat constructor.
Qed.

(** ** Tables the program provisioned itself *)

Lemma ready_table_columns meta w :
  tenant_table_ok meta w -> st_columns (ready_table meta w) = users_columns.
Proof.
  intros H. unfold ready_table.
  destruct (database_of (db_url meta) w !! users_table_name meta) as [st|] eqn:E;
    cbn [default id].
  - now apply H.
  - reflexivity.
Qed.

Lemma run_op_tenant_table_ok a ma op w :
  TENANT_META !! a = Some ma ->
  tenant_table_ok ma w -> tenant_table_ok ma (run_op w op).
Proof.
  intros Ea Hok. unfold tenant_table_ok.
  destruct (decide (op_tenant op = a)) as [Heq|Hne].
  2:{ rewrite (run_op_foreign_file op a ma w Ea Hne). exact Hok. }
  pose proof (ready_table_columns ma w Hok) as Hready.
  destruct op as [t u|t]; cbn [op_tenant] in Heq; subst t; cbn [run_op].
  - rewrite (create_user_known u a ma w Ea). cbn zeta.
    destruct (insertable (ready_table ma w)); cbn [snd].
    + rewrite database_of_write_table, lookup_insert_eq. intros st [= <-]. exact Hready.
    + change (database_of (db_url ma) (set_log ?l ?w0)) with (database_of (db_url ma) w0).
      rewrite ready_world_table. intros st [= <-]. exact Hready.
  - rewrite (list_users_known a ma w Ea). cbn zeta.
    destruct (selectable _ _); cbn [snd];
      change (database_of (db_url ma) (set_log ?l ?w0)) with (database_of (db_url ma) w0);
      rewrite ready_world_table; intros st [= <-]; exact Hready.
Qed.

(** Every world the program reaches from a machine without database
    files has well-formed tenant tables. *)
Lemma reachable_tenant_table_ok a ma ops :
  TENANT_META !! a = Some ma ->
  tenant_table_ok ma (run_ops ops initial_world).
Proof.
  intros Ea.
  assert (H : forall w, tenant_table_ok ma w -> tenant_table_ok ma (run_ops ops w)).
  { induction ops as [|op ops IH]; intros w Hok; [exact Hok|].
    cbn [run_ops fold_left]. apply IH. now apply (run_op_tenant_table_ok a). }
  apply H. intros st. unfold database_of. cbn [files initial_world].
  rewrite lookup_empty. cbn [default]. rewrite lookup_empty. discriminate.
Qed.

(** Declaring the table a second time against the same MetaData object
    is refused by SQLAlchemy: the routes never do it, as each request
    gets a MetaData object of its own. *)
Lemma ensure_tenant_table_same_metadata engine metadata prefix w :
  metadatas w !! metadata = Some [] ->
  fst (ensure_tenant_table engine metadata prefix
         (snd (ensure_tenant_table engine metadata prefix w)))
  = Raise (InvalidRequestError (prefix +:+ "users")).
Proof.
  intros Hm.
  assert (Hlt : (metadata < length (metadatas w))%nat) by (eapply lookup_lt_Some; eauto).
  rewrite (ensure_tenant_table_fresh engine metadata prefix w Hm). cbn [snd].
  unfold ensure_tenant_table.
  rewrite (bind_Raise _ _ _ (InvalidRequestError (prefix +:+ "users"))
             (provisioned_world engine metadata prefix w)); [reflexivity|].
  apply new_Table_defined. unfold metadata_tables.
  assert (Hm' : metadatas (provisioned_world engine metadata prefix w)
                = <[metadata := [users_table_of prefix]]> (metadatas w)).
  { unfold provisioned_world.
    destruct (database_of (engine_url engine) w !! (prefix +:+ "users")); reflexivity. }
  rewrite Hm', list_lookup_insert_eq by exact Hlt. cbn. left.
Qed.

(** * The specification, claim by claim *)

(** ** C1 *)

(** C1, as stated, fails: two acquisitions in a row for tenant "alpha"
    return two different engines (identities 0 and 1), and two engines for
    the same URL exist afterwards. *)
Lemma get_db_session_twice_two_engines :
  let r1 := get_db_session "alpha" initial_world in
  let r2 := get_db_session "alpha" (snd r1) in
  (exists s m, fst r1 = Return (s, m, {| engine_id := 0; engine_url := alpha_url |})) /\
  (exists s m, fst r2 = Return (s, m, {| engine_id := 1; engine_url := alpha_url |})) /\
  engines (snd r2) = [alpha_url; alpha_url].
Proof. vm_compute. repeat split; eauto. Qed.

(** C1, amended: for every registered tenant, every call of
    [get_db_session] succeeds and constructs a new engine from the
    tenant's [db_url]; the engine it returns did not exist before the call
    and the list of engines grows by exactly that one.  Nothing is
    cached. *)
Theorem get_db_session_constructs_engine tenant_id meta w :
  TENANT_META !! tenant_id = Some meta ->
  exists session metadata engine w',
    get_db_session tenant_id w = (Return (session, metadata, engine), w') /\
    engine_url engine = db_url meta /\
    engine_id engine = length (engines w) /\
    engines w' = engines w ++ [db_url meta].
Proof.
  intros E. rewrite (get_db_session_known tenant_id meta w E).
  eexists _, _, _, _. repeat split.
Qed.

Lemma get_db_session_constructs_engine_witness :
  exists session metadata engine w',
    get_db_session "beta" initial_world = (Return (session, metadata, engine), w') /\
    engine_url engine = "sqlite:///./beta.db" /\
    engine_id engine = 0%nat /\
    engines w' = ["sqlite:///./beta.db"].
Proof.
  apply (get_db_session_constructs_engine "beta"
           {| db_url := "sqlite:///./beta.db"; table_prefix := "beta_" |} initial_world).
  reflexivity.
Defined.

(** ** C2 *)

(** C2: for distinct registered tenants [a] and [b], any starting world
    and any sequence of create and list operations, what listing [a]
    returns is unchanged when every operation of [b] is removed from the
    sequence, and the same with the roles exchanged: no row inserted for
    one tenant is visible to the other. *)
Theorem tenant_isolation a b ma mb (ops : list Op) (w : World) :
  TENANT_META !! a = Some ma ->
  TENANT_META !! b = Some mb ->
  a <> b ->
  fst (list_users a (run_ops ops w))
  = fst (list_users a (run_ops (filter (fun op => op_tenant op <> b) ops) w)) /\
  fst (list_users b (run_ops ops w))
  = fst (list_users b (run_ops (filter (fun op => op_tenant op <> a) ops) w)).
Proof.
  intros Ea Eb Hne.
  assert (Hown : forall x mx y, TENANT_META !! x = Some mx -> x <> y ->
            fst (list_users x (run_ops ops w))
            = fst (list_users x (run_ops (filter (fun op => op_tenant op <> y) ops) w))).
  { intros x mx y Ex Hxy. apply (list_users_own_file x mx); [exact Ex|].
    rewrite (run_ops_own_file x mx ops w w Ex eq_refl).
    rewrite (run_ops_own_file x mx (filter (fun op => op_tenant op <> y) ops) w w Ex eq_refl).
    rewrite list_filter_filter.
    rewrite (list_filter_iff (fun op => op_tenant op = x /\ op_tenant op <> y)
               (fun op => op_tenant op = x)); [reflexivity|].
    intros op. split; [tauto|]. intros Hop. split; [exact Hop|congruence]. }
  split; [apply (Hown a ma b Ea Hne)|apply (Hown b mb a Eb)]; congruence.
Qed.

Lemma tenant_isolation_witness :
  let ops := [OpCreate "alpha" bob; OpCreate "beta" bob; OpCreate "beta" bob] in
  fst (list_users "alpha" (run_ops ops initial_world))
  = fst (list_users "alpha"
           (run_ops (filter (fun op => op_tenant op <> "beta") ops) initial_world)) /\
  fst (list_users "beta" (run_ops ops initial_world))
  = fst (list_users "beta"
           (run_ops (filter (fun op => op_tenant op <> "alpha") ops) initial_world)).
Proof.
  apply (tenant_isolation "alpha" "beta"
           {| db_url := "sqlite:///./alpha.db"; table_prefix := "alpha_" |}
           {| db_url := "sqlite:///./beta.db"; table_prefix := "beta_" |}).
  - reflexivity.
  - reflexivity.
  - discriminate.
Defined.

(** The scenario of the specification: both tenants insert the same
    name and e-mail; each sees one row, its own. *)
Example same_user_in_both_tenants :
  let w := run_ops [OpCreate "alpha" bob; OpCreate "beta" bob] initial_world in
  fst (list_users "alpha" w)
  = Return [{| row_id := VInt 1; row_name := VStr "bob";
               row_email := VStr "bob@example.org" |}] /\
  fst (list_users "beta" w)
  = Return [{| row_id := VInt 1; row_name := VStr "bob";
               row_email := VStr "bob@example.org" |}].
Proof. vm_compute. split; reflexivity. Qed.

(** ** C3 *)




(** ** C4 *)

(** C4: a request without an [X-Tenant-ID] header is refused on both
    routes with the 400 error "Missing X-Tenant-ID header", a client
    error, and the world is left exactly as it was: no registry lookup,
    no engine, no MetaData object, no database access, no trace. *)
Theorem missing_header_fails_fast request user w :
  "x-tenant-id" ∉ (headers request).*1 ->
  POST_users request user w = (Raise MissingTenantHeader, w) /\
  GET_users request w = (Raise MissingTenantHeader, w) /\
  is_client_error MissingTenantHeader.
Proof.
  intros Habsent.
  assert (E : headers_get "X-Tenant-ID" (headers request) = None)
    by (apply headers_get_absent; exact Habsent).
  unfold POST_users, GET_users.
  rewrite !(bind_Raise _ _ _ _ _ (get_tenant_request_absent request w E)).
  repeat split; cbn; lia.
Qed.

Lemma missing_header_fails_fast_witness :
  let request := {| headers := [("content-type", "application/json")] |} in
  POST_users request bob initial_world = (Raise MissingTenantHeader, initial_world) /\
  GET_users request initial_world = (Raise MissingTenantHeader, initial_world) /\
  is_client_error MissingTenantHeader.
Proof.
  intros request. apply (missing_header_fails_fast request bob initial_world).
  apply (bool_decide_eq_true_1 ("x-tenant-id" ∉ (headers request).*1)).
  vm_compute. reflexivity.
Defined.

(** ** C5 *)

(** C5: for a tenant id that the registry does not have,
    [get_tenant_meta], [get_db_session], [create_user] and [list_users]
    raise the 404 error "Tenant not found", a client error, and so do both
    routes for every request whose header carries that id; the world
    differs from the one before only by the trace entry of the registry
    lookup, so no engine was built and no database was touched. *)
Theorem unknown_tenant_not_found tenant_id user w :
  TENANT_META !! tenant_id = None ->
  let w' := set_log (log w ++ [EvRegistryLookup tenant_id]) w in
  get_tenant_meta tenant_id w = (Raise UnknownTenant, w') /\
  get_db_session tenant_id w = (Raise UnknownTenant, w') /\
  create_user user tenant_id w = (Raise UnknownTenant, w') /\
  list_users tenant_id w = (Raise UnknownTenant, w') /\
  (forall request,
     headers_get "X-Tenant-ID" (headers request) = Some tenant_id -> tenant_id <> "" ->
     POST_users request user w = (Raise UnknownTenant, w') /\
     GET_users request w = (Raise UnknownTenant, w')) /\
  is_client_error UnknownTenant /\
  files w' = files w /\ engines w' = engines w /\ metadatas w' = metadatas w.
Proof.
  intros E w'.
  assert (Hc : create_user user tenant_id w = (Raise UnknownTenant, w')).
  { unfold create_user.
    now rewrite (bind_Raise _ _ _ _ _ (get_db_session_unknown tenant_id w E)). }
  assert (Hl : list_users tenant_id w = (Raise UnknownTenant, w')).
  { unfold list_users.
    now rewrite (bind_Raise _ _ _ _ _ (get_db_session_unknown tenant_id w E)). }
  split; [exact (get_tenant_meta_unknown tenant_id w E)|].
  split; [exact (get_db_session_unknown tenant_id w E)|].
  split; [exact Hc|]. split; [exact Hl|].
  split.
  - intros request Hh Hne. unfold POST_users, GET_users.
    rewrite !(bind_Return _ _ _ _ _ (get_tenant_request_present request tenant_id w Hh Hne)).
    split; [exact Hc|exact Hl].
  - repeat split; cbn; lia.
Qed.

Lemma unknown_tenant_not_found_witness :
  let w' := set_log (log initial_world ++ [EvRegistryLookup "gamma"]) initial_world in
  get_tenant_meta "gamma" initial_world = (Raise UnknownTenant, w') /\
  get_db_session "gamma" initial_world = (Raise UnknownTenant, w') /\
  create_user bob "gamma" initial_world = (Raise UnknownTenant, w') /\
  list_users "gamma" initial_world = (Raise UnknownTenant, w') /\
  (forall request,
     headers_get "X-Tenant-ID" (headers request) = Some "gamma" -> "gamma" <> "" ->
     POST_users request bob initial_world = (Raise UnknownTenant, w') /\
     GET_users request initial_world = (Raise UnknownTenant, w')) /\
  is_client_error UnknownTenant /\
  files w' = files initial_world /\ engines w' = engines initial_world /\
  metadatas w' = metadatas initial_world.
Proof.
  apply (unknown_tenant_not_found "gamma" bob initial_world). reflexivity.
Defined.

(** ** C6 *)

(** C6, as stated, fails: with [legacy_table] already stored under the
    name [alpha_users], a table whose only column is a text column,
    [ensure_tenant_table] returns normally and the stored table is
    still [legacy_table]. *)
Lemma ensure_accepts_foreign_definition :
  database_of alpha_url legacy_world !! "alpha_users" = Some legacy_table /\
  st_columns legacy_table <> users_columns /\
  fst (ensure_tenant_table alpha_engine 0 "alpha_" legacy_world)
  = Return (users_table_of "alpha_") /\
  database_of alpha_url (snd (ensure_tenant_table alpha_engine 0 "alpha_" legacy_world))
  !! "alpha_users" = Some legacy_table.
Proof.
  split; [vm_compute; reflexivity|].
  split; [discriminate|].
  split; vm_compute; reflexivity.
Qed.

(** C6, amended: whenever the backing store already contains a table
    named prefix + "users", whatever its columns, [ensure_tenant_table]
    (given an empty MetaData object) returns the declared table without
    raising and leaves every database file unchanged: the existing
    definition is neither compared with the expected one nor migrated. *)
Theorem ensure_tenant_table_keeps_existing engine metadata prefix w st :
  metadatas w !! metadata = Some [] ->
  database_of (engine_url engine) w !! (prefix +:+ "users") = Some st ->
  exists w',
    ensure_tenant_table engine metadata prefix w = (Return (users_table_of prefix), w') /\
    files w' = files w.
Proof.
  intros Hm Hst. exists (provisioned_world engine metadata prefix w).
  split; [now apply ensure_tenant_table_fresh|].
  unfold provisioned_world. now rewrite Hst.
Qed.

Lemma ensure_tenant_table_keeps_existing_witness :
  exists w',
    ensure_tenant_table alpha_engine 0 "alpha_" legacy_world
    = (Return (users_table_of "alpha_"), w') /\
    files w' = files legacy_world.
Proof.
  apply (ensure_tenant_table_keeps_existing alpha_engine 0%nat "alpha_" legacy_world
           legacy_table).
  - reflexivity.
  - vm_compute. reflexivity.
Defined.

(** ** C7 *)

Lemma insertable_users st :
  st_columns st = users_columns -> insertable st = true.
Proof. intros E. unfold insertable, has_column. rewrite E. reflexivity. Qed.

Lemma selectable_users prefix st :
  st_columns st = users_columns -> selectable (users_table_of prefix) st = true.
Proof. intros E. unfold selectable, has_column. rewrite E. reflexivity. Qed.

Lemma new_row_users st name email :
  st_columns st = users_columns ->
  new_row st name email
  = [("id", VInt (next_rowid "id" (st_rows st))); ("name", VStr name); ("email", VStr email)].
Proof.
  intros E. unfold new_row, rowid_alias. rewrite E. reflexivity.
Qed.



(** ** C8 *)






(** ** C9 *)

Lemma POST_users_resolved request user tenant_id meta w :
  headers_get "X-Tenant-ID" (headers request) = Some tenant_id ->
  TENANT_META !! tenant_id = Some meta ->
  POST_users request user w = create_user user tenant_id w.
Proof.
  intros Hh E. unfold POST_users.
  now rewrite (bind_Return _ _ _ _ _
                 (get_tenant_request_present request tenant_id w Hh
                    (registered_not_empty _ _ E))).
Qed.

Lemma GET_users_resolved request tenant_id meta w :
  headers_get "X-Tenant-ID" (headers request) = Some tenant_id ->
  TENANT_META !! tenant_id = Some meta ->
  GET_users request w = list_users tenant_id w.
Proof.
  intros Hh E. unfold GET_users.
  now rewrite (bind_Return _ _ _ _ _
                 (get_tenant_request_present request tenant_id w Hh
                    (registered_not_empty _ _ E))).
Qed.

(** C9: for every request on the create or the list route whose
    [X-Tenant-ID] header names a registered tenant, the route declares
    the table under the name [table_prefix] + "users" of that tenant's
    own registry entry, and everything the request sends to a database
    (existence check, CREATE TABLE, INSERT, SELECT) goes to the tenant's
    [db_url] and names that table; the create route does send its INSERT
    and the list route its SELECT there. *)
Theorem routes_use_tenant_table request user tenant_id meta w :
  headers_get "X-Tenant-ID" (headers request) = Some tenant_id ->
  TENANT_META !! tenant_id = Some meta ->
  table_name (users_table_of (table_prefix meta)) = table_prefix meta +:+ "users" /\
  (exists events,
     log (snd (POST_users request user w)) = log w ++ events /\
     Forall (targets meta) events /\
     EvInsert (db_url meta) (table_prefix meta +:+ "users") ∈ events) /\
  (exists events,
     log (snd (GET_users request w)) = log w ++ events /\
     Forall (targets meta) events /\
     EvSelect (db_url meta) (table_prefix meta +:+ "users") ∈ events).
Proof.
  intros Hh E. split; [reflexivity|].
  rewrite (POST_users_resolved request user tenant_id meta w Hh E).
  rewrite (GET_users_resolved request tenant_id meta w Hh E).
  rewrite (create_user_known user tenant_id meta w E).
  rewrite (list_users_known tenant_id meta w E). cbn zeta.
  split.
  - exists (prelude_events tenant_id meta w
            ++ [EvInsert (db_url meta) (users_table_name meta)]).
    split.
    + destruct (insertable (ready_table meta w));
        cbn [snd log write_table set_files set_log];
        now rewrite log_ready_world, app_assoc.
    + split.
      * apply Forall_app. split; [apply prelude_events_targets|].
        repeat constructor.
      * apply elem_of_app. right. apply list_elem_of_singleton. reflexivity.
  - exists (prelude_events tenant_id meta w
            ++ [EvSelect (db_url meta) (users_table_name meta)]).
    split.
    + destruct (selectable _ (ready_table meta w));
        cbn [snd log set_log];
        now rewrite log_ready_world, app_assoc.
    + split.
      * apply Forall_app. split; [apply prelude_events_targets|].
        repeat constructor.
      * apply elem_of_app. right. apply list_elem_of_singleton. reflexivity.
Qed.

Lemma routes_use_tenant_table_witness :
  let request := {| headers := [("x-tenant-id", "beta")] |} in
  let meta := {| db_url := "sqlite:///./beta.db"; table_prefix := "beta_" |} in
  table_name (users_table_of (table_prefix meta)) = table_prefix meta +:+ "users" /\
  (exists events,
     log (snd (POST_users request bob initial_world)) = log initial_world ++ events /\
     Forall (targets meta) events /\
     EvInsert (db_url meta) (table_prefix meta +:+ "users") ∈ events) /\
  (exists events,
     log (snd (GET_users request initial_world)) = log initial_world ++ events /\
     Forall (targets meta) events /\
     EvSelect (db_url meta) (table_prefix meta +:+ "users") ∈ events).
Proof.
  intros request meta.
  apply (routes_use_tenant_table request bob "beta" meta initial_world).
  - reflexivity.
  - reflexivity.
Defined.

(** ** C10 *)

(** C10: when the [X-Tenant-ID] header is present with the empty string
    as its value, [get_tenant_request] and both routes raise the 400 error
    "Missing X-Tenant-ID header", the same as for an absent header and
    not the 404 of an unknown tenant, and the world is left as it was. *)
Theorem empty_header_is_missing request user w :
  headers_get "X-Tenant-ID" (headers request) = Some "" ->
  get_tenant_request request w
  = (Raise (HTTPException 400 "Missing X-Tenant-ID header"), w) /\
  POST_users request user w = (Raise (HTTPException 400 "Missing X-Tenant-ID header"), w) /\
  GET_users request w = (Raise (HTTPException 400 "Missing X-Tenant-ID header"), w) /\
  HTTPException 400 "Missing X-Tenant-ID header" <> UnknownTenant.
Proof.
  intros E. unfold POST_users, GET_users.
  rewrite !(bind_Raise _ _ _ _ _ (get_tenant_request_empty request w E)).
  rewrite (get_tenant_request_empty request w E).
  repeat split. discriminate.
Qed.

Lemma empty_header_is_missing_witness :
  let request := {| headers := [("x-tenant-id", "")] |} in
  get_tenant_request request initial_world
  = (Raise (HTTPException 400 "Missing X-Tenant-ID header"), initial_world) /\
  POST_users request bob initial_world
  = (Raise (HTTPException 400 "Missing X-Tenant-ID header"), initial_world) /\
  GET_users request initial_world
  = (Raise (HTTPException 400 "Missing X-Tenant-ID header"), initial_world) /\
  HTTPException 400 "Missing X-Tenant-ID header" <> UnknownTenant.
Proof.
  intros request. apply (empty_header_is_missing request bob initial_world). reflexivity.
Defined.


(** * Further properties of the code *)

(** ** Helper equations *)

Lemma files_provisioned_present engine metadata prefix w st :
  database_of (engine_url engine) w !! (prefix +:+ "users") = Some st ->
  files (provisioned_world engine metadata prefix w) = files w.
Proof. intros E. unfold provisioned_world. now rewrite E. Qed.

Lemma files_ready_world_present tenant_id meta w st :
  database_of (db_url meta) w !! users_table_name meta = Some st ->
  files (ready_world tenant_id meta w) = files w.
Proof.
  intros E. unfold ready_world.
  now rewrite (files_provisioned_present (session_engine meta w) _ _
                 (session_world tenant_id meta w) st E).
Qed.

Lemma engines_ready_world tenant_id meta w :
  engines (ready_world tenant_id meta w) = engines w ++ [db_url meta].
Proof.
  unfold ready_world, provisioned_world.
  destruct (database_of _ _ !! _); reflexivity.
Qed.

Lemma database_of_eq_files url w w' :
  files w' = files w -> database_of url w' = database_of url w.
Proof. intros E. unfold database_of. now rewrite E. Qed.

(** What [list_users] hands back is read off the stored rows. *)
Lemma listing_of_rows prefix st :
  map as_user_row (selected (users_table_of prefix) st) = map as_user_row (st_rows st).
Proof.
  unfold selected. rewrite map_map. apply map_ext. intros r. reflexivity.
Qed.

Lemma list_users_result tenant_id meta w :
  TENANT_META !! tenant_id = Some meta ->
  st_columns (ready_table meta w) = users_columns ->
  fst (list_users tenant_id w) = Return (map as_user_row (st_rows (ready_table meta w))).
Proof.
  intros E Hcols. rewrite (list_users_known tenant_id meta w E). cbn zeta.
  rewrite (selectable_users (table_prefix meta) _ Hcols). cbn [fst].
  now rewrite listing_of_rows.
Qed.

Lemma database_after_list_users tenant_id meta w :
  TENANT_META !! tenant_id = Some meta ->
  database_of (db_url meta) (snd (list_users tenant_id w))
  = provision (users_table_name meta) (database_of (db_url meta) w).
Proof.
  intros E. rewrite (list_users_known tenant_id meta w E). cbn zeta.
  destruct (selectable _ _); cbn [snd];
    change (database_of (db_url meta) (set_log ?l ?w0)) with (database_of (db_url meta) w0);
    apply database_of_ready_world.
Qed.

Lemma ready_table_provision meta db :
  default empty_users_table (provision (users_table_name meta) db !! users_table_name meta)
  = default empty_users_table (db !! users_table_name meta).
Proof. now rewrite provision_lookup. Qed.

(** The tenant's table after one operation, whoever issued it. *)
Lemma ready_table_run_op a ma op w :
  TENANT_META !! a = Some ma ->
  ready_table ma (run_op w op)
  = match op with
    | OpCreate t u =>
        if decide (t = a)
        then if insertable (ready_table ma w)
             then inserted (ready_table ma w) (name u) (email u)
             else ready_table ma w
        else ready_table ma w
    | OpList _ => ready_table ma w
    end.
Proof.
  intros Ea.
  destruct (decide (op_tenant op = a)) as [Heq|Hne].
  - destruct op as [t u|t]; cbn [op_tenant] in Heq; subst t; cbn [run_op].
    + rewrite decide_True by reflexivity.
      rewrite (create_user_known u a ma w Ea). cbn zeta.
      destruct (insertable (ready_table ma w)); cbn [snd].
      * unfold ready_table at 1. now rewrite database_of_write_table, lookup_insert_eq.
      * unfold ready_table at 1.
        change (database_of (db_url ma) (set_log ?l ?w0)) with (database_of (db_url ma) w0).
        now rewrite ready_world_table.
    + unfold ready_table at 1. rewrite (database_after_list_users a ma w Ea).
      apply ready_table_provision.
  - assert (Hsame : ready_table ma (run_op w op) = ready_table ma w).
    { apply ready_table_congruence. now apply (run_op_foreign_file op a ma w Ea). }
    rewrite Hsame. destruct op as [t u|t]; [|reflexivity].
    cbn [op_tenant] in Hne. now rewrite decide_False.
Qed.

(** ** Listing *)

(** X1: listing a registered tenant whose table does not exist yet is
    not an error: [list_users] returns the empty list, and the request
    has created the tenant's table, empty and with the declared
    columns, next to the tables the database already had. *)
Theorem list_users_before_first_insert tenant_id meta w :
  TENANT_META !! tenant_id = Some meta ->
  database_of (db_url meta) w !! users_table_name meta = None ->
  exists w',
    list_users tenant_id w = (Return [], w') /\
    database_of (db_url meta) w'
    = <[users_table_name meta := empty_users_table]> (database_of (db_url meta) w).
Proof.
  intros E Habsent.
  assert (Hready : ready_table meta w = empty_users_table)
    by (unfold ready_table; now rewrite Habsent).
  exists (snd (list_users tenant_id w)). split.
  - rewrite (list_users_known tenant_id meta w E). cbn zeta.
    rewrite Hready. reflexivity.
  - rewrite (database_after_list_users tenant_id meta w E).
    unfold provision. now rewrite Habsent.
Qed.

Lemma list_users_before_first_insert_witness :
  let meta := {| db_url := "sqlite:///./beta.db"; table_prefix := "beta_" |} in
  exists w',
    list_users "beta" initial_world = (Return [], w') /\
    database_of (db_url meta) w'
    = <[users_table_name meta := empty_users_table]> (database_of (db_url meta) initial_world).
Proof.
  intros meta. apply (list_users_before_first_insert "beta" meta initial_world).
  - reflexivity.
  - vm_compute. reflexivity.
Defined.

(** X2: [list_users] never changes or removes a stored table: every
    table of every database is the same after the call, for any tenant
    id and any world; the only table that can be new is the empty table
    of the tenant of the request. *)
Theorem list_users_keeps_tables tenant_id w :
  let w' := snd (list_users tenant_id w) in
  (forall url tname st,
     database_of url w !! tname = Some st -> database_of url w' !! tname = Some st) /\
  (forall url tname st,
     database_of url w' !! tname = Some st ->
     database_of url w !! tname = Some st \/
     (database_of url w !! tname = None /\ st = empty_users_table /\
      exists meta, TENANT_META !! tenant_id = Some meta /\
                   url = db_url meta /\ tname = users_table_name meta)).
Proof.
  intros w'. subst w'.
  destruct (TENANT_META !! tenant_id) as [meta|] eqn:E.
  2:{ unfold list_users.
      rewrite (bind_Raise _ _ _ _ _ (get_db_session_unknown tenant_id w E)). cbn [snd].
      split; intros url tname st H; [exact H|left; exact H]. }
  assert (Hother : forall url, url <> db_url meta ->
            database_of url (snd (list_users tenant_id w)) = database_of url w).
  { intros url Hne. rewrite (list_users_known tenant_id meta w E). cbn zeta.
    destruct (selectable _ _); cbn [snd];
      change (database_of url (set_log ?l ?w0)) with (database_of url w0);
      apply database_of_ready_world_ne; congruence. }
  pose proof (database_after_list_users tenant_id meta w E) as Hown.
  split; intros url tname st H.
  - destruct (decide (url = db_url meta)) as [->|Hne]; [|now rewrite Hother].
    rewrite Hown.
    destruct (decide (tname = users_table_name meta)) as [->|Hn].
    + rewrite provision_lookup, H. reflexivity.
    + rewrite provision_lookup_ne by congruence. exact H.
  - destruct (decide (url = db_url meta)) as [->|Hne]; [|left; now rewrite <- Hother].
    rewrite Hown in H.
    destruct (decide (tname = users_table_name meta)) as [->|Hn].
    + rewrite provision_lookup in H.
      destruct (database_of (db_url meta) w !! users_table_name meta) as [st0|] eqn:E0.
      * left. exact H.
      * right. cbn [default id] in H. injection H as <-. eauto 10.
    + rewrite provision_lookup_ne in H by congruence. left. exact H.
Qed.

(** X3: listing is repeatable: a second [list_users] right after the
    first returns the same outcome (the same rows, or the same error),
    and it leaves every database file as the first call left it. *)
Theorem list_users_twice tenant_id w :
  let w1 := snd (list_users tenant_id w) in
  fst (list_users tenant_id w1) = fst (list_users tenant_id w) /\
  files (snd (list_users tenant_id w1)) = files w1.
Proof.
  intros w1. subst w1.
  destruct (TENANT_META !! tenant_id) as [meta|] eqn:E.
  2:{ unfold list_users.
      rewrite !(bind_Raise _ _ _ _ _ (get_db_session_unknown tenant_id _ E)).
      split; reflexivity. }
  assert (Hready : ready_table meta (snd (list_users tenant_id w)) = ready_table meta w).
  { unfold ready_table at 1. rewrite (database_after_list_users tenant_id meta w E).
    apply ready_table_provision. }
  assert (Hpresent : database_of (db_url meta) (snd (list_users tenant_id w))
                     !! users_table_name meta = Some (ready_table meta w)).
  { rewrite (database_after_list_users tenant_id meta w E). apply provision_lookup. }
  split.
  - rewrite (list_users_known tenant_id meta (snd (list_users tenant_id w)) E). cbn zeta.
    rewrite Hready.
    rewrite (list_users_known tenant_id meta w E). cbn zeta.
    now destruct (selectable _ _).
  - rewrite (list_users_known tenant_id meta (snd (list_users tenant_id w)) E). cbn zeta.
    destruct (selectable _ _); cbn [snd files set_log];
      exact (files_ready_world_present _ _ _ _ Hpresent).
Qed.

(** ** Identifiers and order *)

Lemma max_rowid_stored_from us : forall i u,
  max_rowid "id" (stored_from i (u :: us)) = Some (i + Z.of_nat (length us)).
Proof.
  induction us as [|u' us IH]; intros i u.
  - cbn. f_equal. lia.
  - change (stored_from i (u :: u' :: us)) with (user_row i u :: stored_from (i + 1) (u' :: us)).
    cbn [max_rowid]. rewrite IH. cbn [row_get user_row String.eqb Ascii.eqb Bool.eqb].
    f_equal. cbn [length]. lia.
Qed.

Lemma next_rowid_stored_from us :
  next_rowid "id" (stored_from 1 us) = 1 + Z.of_nat (length us).
Proof.
  unfold next_rowid. destruct us as [|u us]; [reflexivity|].
  rewrite max_rowid_stored_from. cbn [length]. lia.
Qed.

Lemma stored_from_snoc us : forall i u,
  stored_from i (us ++ [u]) = stored_from i us ++ [user_row (i + Z.of_nat (length us)) u].
Proof.
  induction us as [|u' us IH]; intros i u.
  - cbn. now rewrite Z.add_0_r.
  - cbn [app stored_from length]. rewrite IH.
    replace (i + 1 + Z.of_nat (length us)) with (i + Z.of_nat (S (length us))) by lia.
    reflexivity.
Qed.

Lemma listing_of_stored_from us : forall i,
  map as_user_row (stored_from i us) = listed_from i us.
Proof.
  induction us as [|u us IH]; intros i; [reflexivity|].
  cbn [stored_from listed_from map]. now rewrite IH.
Qed.



(** The table of tenant [a] after a run from a table holding the users
    [us] numbered from 1. *)
Lemma stored_from_run_ops a ma ops : forall w us,
  TENANT_META !! a = Some ma ->
  ready_table ma w = {| st_columns := users_columns; st_rows := stored_from 1 us |} ->
  ready_table ma (run_ops ops w)
  = {| st_columns := users_columns; st_rows := stored_from 1 (us ++ created_for a ops) |}.
Proof.
  induction ops as [|op ops IH]; intros w us Ea Hinv.
  - cbn [run_ops fold_left created_for]. now rewrite app_nil_r.
  - cbn [run_ops fold_left]. fold (run_ops ops (run_op w op)).
    pose proof (ready_table_run_op a ma op w Ea) as Hstep.
    destruct op as [t u|t]; cbn [created_for].
    + destruct (decide (t = a)) as [->|Hne].
      * rewrite Hinv in Hstep.
        rewrite (insertable_users
                   {| st_columns := users_columns; st_rows := stored_from 1 us |} eq_refl)
          in Hstep.
        unfold inserted in Hstep.
        rewrite (new_row_users
                   {| st_columns := users_columns; st_rows := stored_from 1 us |}
                   (name u) (email u) eq_refl) in Hstep.
        cbn [st_rows st_columns] in Hstep.
        rewrite next_rowid_stored_from in Hstep.
        change [("id", VInt (1 + Z.of_nat (length us))); ("name", VStr (name u));
                ("email", VStr (email u))]
          with (user_row (1 + Z.of_nat (length us)) u) in Hstep.
        rewrite <- stored_from_snoc in Hstep.
        rewrite (IH _ (us ++ [u]) Ea Hstep), <- app_assoc. reflexivity.
      * rewrite Hinv in Hstep. now apply IH.
    + rewrite Hinv in Hstep. now apply IH.
Qed.

(** X4: on a machine that starts without database files, after any
    sequence of create and list operations by any tenants, known or
    not, [list_users] for a registered tenant returns exactly the users
    created for that tenant, in the order they were created, numbered
    1, 2, 3, ... *)
Theorem listing_from_scratch a ma ops :
  TENANT_META !! a = Some ma ->
  fst (list_users a (run_ops ops initial_world))
  = Return (listed_from 1 (created_for a ops)).
Proof.
  intros Ea.
  assert (Hinit : ready_table ma initial_world
                  = {| st_columns := users_columns; st_rows := stored_from 1 [] |}).
  { unfold ready_table, database_of. cbn [files initial_world].
    rewrite lookup_empty. cbn [default]. rewrite lookup_empty. reflexivity. }
  pose proof (stored_from_run_ops a ma ops initial_world [] Ea Hinit) as Hrun.
  cbn [app] in Hrun.
  rewrite (list_users_result a ma _ Ea) by (now rewrite Hrun).
  rewrite Hrun. cbn [st_rows]. now rewrite listing_of_stored_from.
Qed.

Lemma listing_from_scratch_witness :
  let ann := {| name := "ann"; email := "ann@example.org" |} in
  let ops := [OpCreate "alpha" bob; OpList "gamma"; OpCreate "beta" ann;
              OpList "alpha"; OpCreate "alpha" ann] in
  fst (list_users "alpha" (run_ops ops initial_world))
  = Return (listed_from 1 (created_for "alpha" ops)).
Proof.
  intros ann ops.
  apply (listing_from_scratch "alpha"
           {| db_url := "sqlite:///./alpha.db"; table_prefix := "alpha_" |} ops).
  reflexivity.
Defined.





(** ** Engines and the thread-local prefix *)

Lemma engines_run_op op w :
  engines (run_op w op)
  = engines w ++ match engine_of_op op with Some url => [url] | None => [] end.
Proof.
  unfold engine_of_op.
  destruct (TENANT_META !! op_tenant op) as [meta|] eqn:E; cbn [fmap option_fmap option_map].
  - destruct op as [t u|t]; cbn [op_tenant] in E; cbn [run_op].
    + rewrite (create_user_known u t meta w E). cbn zeta.
      destruct (insertable _); cbn [snd engines write_table set_files set_log];
        apply engines_ready_world.
    + rewrite (list_users_known t meta w E). cbn zeta.
      destruct (selectable _ _); cbn [snd engines set_log]; apply engines_ready_world.
  - rewrite app_nil_r.
    destruct op as [t u|t]; cbn [op_tenant] in E; cbn [run_op].
    + unfold create_user.
      now rewrite (bind_Raise _ _ _ _ _ (get_db_session_unknown t w E)).
    + unfold list_users.
      now rewrite (bind_Raise _ _ _ _ _ (get_db_session_unknown t w E)).
Qed.

(** X7: engines are never reused or released: every create or list
    operation for a registered tenant constructs one more engine on that
    tenant's [db_url], whether or not the backend then accepts the
    statement, and an operation for an unknown tenant constructs none.
    After a sequence of operations the engines built are the ones that
    existed before, followed by one per operation of a registered tenant,
    in order. *)
Theorem one_engine_per_request ops w :
  engines (run_ops ops w) = engines w ++ omap engine_of_op ops.
Proof.
  revert w. induction ops as [|op ops IH]; intros w.
  - cbn. now rewrite app_nil_r.
  - cbn [run_ops fold_left]. fold (run_ops ops (run_op w op)).
    rewrite IH, engines_run_op, <- app_assoc. f_equal.
    change (omap engine_of_op (op :: ops))
      with (match engine_of_op op with
            | Some url => url :: omap engine_of_op ops
            | None => omap engine_of_op ops
            end).
    now destruct (engine_of_op op).
Qed.

(** X8: whatever [tenant_context.prefix] holds when a request for a
    registered tenant starts, left by an earlier request or unset, the
    route behaves the same: the result and the world after the call do
    not depend on it, as [get_db_session] overwrites the attribute
    before the route reads it. *)
Theorem routes_ignore_stale_prefix tenant_id meta user stale w :
  TENANT_META !! tenant_id = Some meta ->
  create_user user tenant_id (set_tenant_context stale w) = create_user user tenant_id w /\
  list_users tenant_id (set_tenant_context stale w) = list_users tenant_id w.
Proof.
  intros E.
  rewrite !(create_user_known user tenant_id meta _ E).
  rewrite !(list_users_known tenant_id meta _ E).
  split; reflexivity.
Qed.

Lemma routes_ignore_stale_prefix_witness :
  create_user bob "alpha" (set_tenant_context (Some "beta_") initial_world)
  = create_user bob "alpha" initial_world /\
  list_users "alpha" (set_tenant_context (Some "beta_") initial_world)
  = list_users "alpha" initial_world.
Proof.
  apply (routes_ignore_stale_prefix "alpha"
           {| db_url := "sqlite:///./alpha.db"; table_prefix := "alpha_" |}
           bob (Some "beta_") initial_world).
  reflexivity.
Defined.

(** ** Failures *)

Lemma empty_users_table_insertable : insertable empty_users_table = true.
Proof. reflexivity. Qed.

Lemma empty_users_table_selectable prefix :
  selectable (users_table_of prefix) empty_users_table = true.
Proof. reflexivity. Qed.

(** A table the routes cannot use was there before the request. *)
Lemma unusable_table_present meta w (usable : StoredTable -> bool) :
  usable empty_users_table = true ->
  usable (ready_table meta w) = false ->
  exists st, database_of (db_url meta) w !! users_table_name meta = Some st.
Proof.
  intros Hempty Hbad. unfold ready_table in Hbad.
  destruct (database_of (db_url meta) w !! users_table_name meta) as [st|]; [eauto|].
  cbn [default id] in Hbad. congruence.
Qed.

(** X9: [create_user] raises in two cases only: the 404 for an unknown
    tenant, or the backend's error on the tenant's table; it never
    raises [AttributeError] on the thread-local nor
    [InvalidRequestError] on the table declaration.  Whenever it raises,
    every database file is exactly as it was before the call: no table
    was created and no row written. *)
Theorem create_user_failure_writes_nothing user tenant_id w e w' :
  create_user user tenant_id w = (Raise e, w') ->
  files w' = files w /\
  (e = UnknownTenant \/
   exists meta, TENANT_META !! tenant_id = Some meta /\
                e = OperationalError (table_prefix meta +:+ "users")).
Proof.
  intros Hrun.
  destruct (TENANT_META !! tenant_id) as [meta|] eqn:E.
  - rewrite (create_user_known user tenant_id meta w E) in Hrun. cbn zeta in Hrun.
    destruct (insertable (ready_table meta w)) eqn:Hins; [discriminate|].
    injection Hrun as <- <-.
    destruct (unusable_table_present meta w insertable empty_users_table_insertable Hins)
      as [st Hst].
    split; [|right; eauto].
    cbn [files set_log]. exact (files_ready_world_present _ _ _ _ Hst).
  - unfold create_user in Hrun.
    rewrite (bind_Raise _ _ _ _ _ (get_db_session_unknown tenant_id w E)) in Hrun.
    injection Hrun as <- <-. split; [reflexivity|left; reflexivity].
Qed.

Lemma create_user_failure_writes_nothing_witness :
  files (snd (create_user bob "alpha" legacy_world)) = files legacy_world /\
  (OperationalError "alpha_users" = UnknownTenant \/
   exists meta, TENANT_META !! "alpha" = Some meta /\
                OperationalError "alpha_users"
                = OperationalError (table_prefix meta +:+ "users")).
Proof.
  apply (create_user_failure_writes_nothing bob "alpha" legacy_world
           (OperationalError "alpha_users") (snd (create_user bob "alpha" legacy_world))).
  vm_compute. reflexivity.
Defined.

(** X10: [list_users] raises in two cases only: the 404 for an unknown
    tenant, or the backend's error on the tenant's table; whenever it
    raises, every database file is exactly as it was before the call. *)
Theorem list_users_failure_writes_nothing tenant_id w e w' :
  list_users tenant_id w = (Raise e, w') ->
  files w' = files w /\
  (e = UnknownTenant \/
   exists meta, TENANT_META !! tenant_id = Some meta /\
                e = OperationalError (table_prefix meta +:+ "users")).
Proof.
  intros Hrun.
  destruct (TENANT_META !! tenant_id) as [meta|] eqn:E.
  - rewrite (list_users_known tenant_id meta w E) in Hrun. cbn zeta in Hrun.
    destruct (selectable (users_table_of (table_prefix meta)) (ready_table meta w)) eqn:Hsel;
      [discriminate|].
    injection Hrun as <- <-.
    destruct (unusable_table_present meta w (selectable (users_table_of (table_prefix meta)))
                (empty_users_table_selectable _) Hsel) as [st Hst].
    split; [|right; eauto].
    cbn [files set_log]. exact (files_ready_world_present _ _ _ _ Hst).
  - unfold list_users in Hrun.
    rewrite (bind_Raise _ _ _ _ _ (get_db_session_unknown tenant_id w E)) in Hrun.
    injection Hrun as <- <-. split; [reflexivity|left; reflexivity].
Qed.

Lemma list_users_failure_writes_nothing_witness :
  files (snd (list_users "alpha" legacy_world)) = files legacy_world /\
  (OperationalError "alpha_users" = UnknownTenant \/
   exists meta, TENANT_META !! "alpha" = Some meta /\
                OperationalError "alpha_users"
                = OperationalError (table_prefix meta +:+ "users")).
Proof.
  apply (list_users_failure_writes_nothing "alpha" legacy_world
           (OperationalError "alpha_users") (snd (list_users "alpha" legacy_world))).
  vm_compute. reflexivity.
Defined.

(** ** The table creation function *)



(** X12: [ensure_tenant_table] cannot be called twice with the same
    MetaData object: the second call raises [InvalidRequestError] for
    the table name at the table declaration, before anything is sent to
    the database, and leaves the world as the first call left it. *)
Theorem ensure_tenant_table_rejects_reused_metadata engine metadata prefix w :
  metadatas w !! metadata = Some [] ->
  let w1 := snd (ensure_tenant_table engine metadata prefix w) in
  ensure_tenant_table engine metadata prefix w1
  = (Raise (InvalidRequestError (prefix +:+ "users")), w1).
Proof.
  intros Hm w1. subst w1.
  assert (Hlt : (metadata < length (metadatas w))%nat) by (eapply lookup_lt_Some; eauto).
  rewrite (ensure_tenant_table_fresh engine metadata prefix w Hm). cbn [snd].
  unfold ensure_tenant_table.
  apply bind_Raise, new_Table_defined. unfold metadata_tables.
  assert (Hm' : metadatas (provisioned_world engine metadata prefix w)
                = <[metadata := [users_table_of prefix]]> (metadatas w)).
  { unfold provisioned_world.
    destruct (database_of (engine_url engine) w !! (prefix +:+ "users")); reflexivity. }
  rewrite Hm', list_lookup_insert_eq by exact Hlt. cbn. left.
Qed.

Lemma ensure_tenant_table_rejects_reused_metadata_witness :
  let w1 := snd (ensure_tenant_table alpha_engine 0 "alpha_" legacy_world) in
  ensure_tenant_table alpha_engine 0 "alpha_" w1
  = (Raise (InvalidRequestError ("alpha_" +:+ "users")), w1).
Proof.
  apply (ensure_tenant_table_rejects_reused_metadata alpha_engine 0%nat "alpha_" legacy_world).
  reflexivity.
Defined.

(** ** What a run never does *)

(** X13: the columns of a tenant's table are never altered: if the
    table of a registered tenant is absent or has the declared columns,
    then after any sequence of operations by any tenants it exists or is
    absent with the declared columns still. *)
Theorem tenant_table_ok_invariant a ma ops w :
  TENANT_META !! a = Some ma ->
  tenant_table_ok ma w ->
  tenant_table_ok ma (run_ops ops w).
Proof.
  intros Ea. revert w. induction ops as [|op ops IH]; intros w Hok; [exact Hok|].
  cbn [run_ops fold_left]. fold (run_ops ops (run_op w op)).
  apply IH. now apply (run_op_tenant_table_ok a).
Qed.

Lemma tenant_table_ok_invariant_witness :
  tenant_table_ok {| db_url := "sqlite:///./beta.db"; table_prefix := "beta_" |}
    (run_ops [OpCreate "beta" bob; OpList "alpha"; OpCreate "beta" bob] initial_world).
Proof.
  apply (tenant_table_ok_invariant "beta"
           {| db_url := "sqlite:///./beta.db"; table_prefix := "beta_" |}).
  - reflexivity.
  - intros st. vm_compute. discriminate.
Defined.

(** X14: an operation writes to the database of its own tenant only:
    the content of a database behind any URL other than the [db_url] of
    the operation's tenant is the same after the operation, and an
    operation for an unknown tenant changes no database at all. *)
Theorem run_op_writes_own_database_only op url w :
  (forall meta, TENANT_META !! op_tenant op = Some meta -> url <> db_url meta) ->
  database_of url (run_op w op) = database_of url w.
Proof.
  intros Hother.
  destruct (TENANT_META !! op_tenant op) as [meta|] eqn:E.
  - pose proof (Hother meta eq_refl) as Hne.
    destruct op as [t u|t]; cbn [op_tenant] in E; cbn [run_op].
    + rewrite (create_user_known u t meta w E). cbn zeta.
      destruct (insertable _); cbn [snd].
      * rewrite database_of_write_table_ne by congruence.
        change (database_of url (set_log ?l ?w0)) with (database_of url w0).
        apply database_of_ready_world_ne. congruence.
      * change (database_of url (set_log ?l ?w0)) with (database_of url w0).
        apply database_of_ready_world_ne. congruence.
    + rewrite (list_users_known t meta w E). cbn zeta.
      destruct (selectable _ _); cbn [snd];
        change (database_of url (set_log ?l ?w0)) with (database_of url w0);
        apply database_of_ready_world_ne; congruence.
  - destruct op as [t u|t]; cbn [op_tenant] in E; cbn [run_op].
    + unfold create_user.
      now rewrite (bind_Raise _ _ _ _ _ (get_db_session_unknown t w E)).
    + unfold list_users.
      now rewrite (bind_Raise _ _ _ _ _ (get_db_session_unknown t w E)).
Qed.

Lemma run_op_writes_own_database_only_witness :
  database_of "sqlite:///./beta.db" (run_op legacy_world (OpCreate "alpha" bob))
  = database_of "sqlite:///./beta.db" legacy_world.
Proof.
  apply (run_op_writes_own_database_only (OpCreate "alpha" bob) "sqlite:///./beta.db"
           legacy_world).
  intros meta. vm_compute. intros [= <-]. discriminate.
Defined.
